(** * app/main.py: the root endpoint of the AI Habit Tracker backend

    The module under verification is

<<
    from fastapi import FastAPI

    app = FastAPI(title="AI Habit Tracker Backend")

    @app.get("/")
    def root():
        return {"status": "ok", "service": "AI Habit Tracker API", "docs": "/docs"}
>>

    The development has three layers:
    - [Py]: the Python values and the state-and-exception monad in which a
      handler body runs;
    - [Framework]: the small part of the hosting framework the module talks
      to (application object, route registration, dispatch);
    - [Main]: the module itself, statement by statement. *)

From Stdlib Require Import String Ascii List.
Import ListNotations.
Local Open Scope string_scope.
Local Open Scope list_scope.
Set Warnings "-register-all".

(* ================================================================== *)
(** ** Python values and dictionaries *)

Module Py.

(** The values a handler can hand to the framework for JSON encoding. *)
Inductive value : Type :=
| VNone : value
| VBool : bool -> value
| VInt : nat -> value
| VStr : string -> value
| VList : list value -> value
| VDict : list (string * value) -> value.

(** A [dict] with string keys, kept in insertion order as Python keeps it. *)
Definition dict := list (string * value).

Fixpoint dict_get (k : string) (d : dict) : option value :=
  match d with
  | [] => None
  | (k', v) :: d' => if String.eqb k k' then Some v else dict_get k d'
  end.

(** [d[k] = v]: an existing key keeps its position, a new key goes last. *)
Fixpoint dict_set (k : string) (v : value) (d : dict) : dict :=
  match d with
  | [] => [(k, v)]
  | (k', v') :: d' =>
      if String.eqb k k' then (k, v) :: d' else (k', v') :: dict_set k v d'
  end.

(** A dict display [{k1: v1, ..., kn: vn}] stores its items left to right. *)
Definition dict_display (items : list (string * value)) : dict :=
  fold_left (fun d kv => dict_set (fst kv) (snd kv) d) items [].

Definition keys (d : dict) : list string := map fst d.
Definition values (d : dict) : list value := map snd d.

Definition is_str (v : value) : bool :=
  match v with VStr _ => true | _ => false end.

(** *** Handler bodies

    A statement either completes with a value or raises; in both cases it
    leaves a (possibly changed) program state behind. *)

Inductive outcome (A : Type) : Type :=
| Returned : A -> outcome A
| Raised : string -> outcome A.
Arguments Returned {A} _.
Arguments Raised {A} _.

Section Monad.
Variable S : Type.

Definition M (A : Type) : Type := S -> outcome A * S.

Definition ret {A} (a : A) : M A := fun s => (Returned a, s).

Definition bind {A B} (m : M A) (f : A -> M B) : M B :=
    fun s =>
      match m s with
      | (Returned a, s') => f a s'
      | (Raised e, s') => (Raised e, s')
      end.

Definition raise {A} (e : string) : M A := fun s => (Raised e, s).
Definition get_state : M S := fun s => (Returned s, s).
Definition put_state (s' : S) : M unit := fun _ => (Returned tt, s').
End Monad.

Arguments ret {S A} _.
Arguments bind {S A B} _ _.
Arguments raise {S A} _.
Arguments get_state {S}.
Arguments put_state {S} _.

End Py.

(* ================================================================== *)
(** ** The hosting framework *)

Module Framework.
Import Py.

Inductive Method : Type :=
| GET | HEAD | POST | PUT | PATCH | DELETE | OPTIONS.

Definition Method_eqb (a b : Method) : bool :=
  match a, b with
  | GET, GET | HEAD, HEAD | POST, POST | PUT, PUT
  | PATCH, PATCH | DELETE, DELETE | OPTIONS, OPTIONS => true
  | _, _ => false
  end.

Record Request : Type := mkRequest {
  method : Method;
  path : string;
  query : string;
  headers : list (string * string);
  payload : string
}.

(** What a response carries as its body: JSON content produced by an
    application handler, or a page the framework generates itself. *)
Inductive Body : Type :=
| JSONContent : value -> Body
| SwaggerUI : Body
| OpenAPISchema : Body
| PlainText : string -> Body.

Record Response : Type := mkResponse {
  status_code : nat;
  media_type : string;
  body : Body
}.

(** The two kinds of routes an application object holds: those registered
    by application code through a decorator ([APIRoute], carrying the name
    of the endpoint function) and those the framework adds on construction. *)
Inductive Generated : Type := DocsPage | SchemaDocument.

Inductive Route : Type :=
| APIRoute (route_path : string) (methods : list Method)
           (endpoint : string) (status : option nat)
| BuiltinRoute (route_path : string) (page : Generated).

Definition route_path (r : Route) : string :=
  match r with
  | APIRoute p _ _ _ => p
  | BuiltinRoute p _ => p
  end.

Definition route_methods (r : Route) : list Method :=
  match r with
  | APIRoute _ ms _ _ => ms
  | BuiltinRoute _ _ => [GET; HEAD]
  end.

Definition is_api_route (r : Route) : bool :=
  match r with APIRoute _ _ _ _ => true | BuiltinRoute _ _ => false end.

Record FastAPI : Type := mkFastAPI {
  title : string;
  docs_url : option string;
  openapi_url : option string;
  routes : list Route;
  user_middleware : list string
}.

(** Modelled from the spec: the framework defaults the module relies on
    and that live in the FastAPI library, not in this repository: a
    handler's response has status 200 and media type application/json,
    and the interactive documentation is served at /docs next to an
    OpenAPI schema endpoint (the library's /openapi.json). *)
Definition default_status_code : nat := 200.
Definition json_media_type : string := "application/json".
Definition default_docs_url : option string := Some "/docs".
Definition default_openapi_url : option string := Some "/openapi.json".

Definition generated_routes (docs schema : option string) : list Route :=
  match schema with
  | None => []
  | Some s =>
      BuiltinRoute s SchemaDocument ::
      match docs with
      | None => []
      | Some d => [BuiltinRoute d DocsPage]
      end
  end.

(** Modelled from the spec: [FastAPI(title=t)], every other keyword left at
    its default; the framework generates the documentation routes itself. *)
Definition new_FastAPI (t : string) : FastAPI :=
  {| title := t;
     docs_url := default_docs_url;
     openapi_url := default_openapi_url;
     routes := generated_routes default_docs_url default_openapi_url;
     user_middleware := [] |}.

(** [@app.get(p)] applied to the function named [f]: one more route, for
    method GET only, with no explicit status code. *)
Definition get (p : string) (f : string) (a : FastAPI) : FastAPI :=
  {| title := title a;
     docs_url := docs_url a;
     openapi_url := openapi_url a;
     routes := routes a ++ [APIRoute p [GET] f None];
     user_middleware := user_middleware a |}.

(** Modelled from the spec: route matching, which the hosting framework
    supplies (Starlette's [Route.matches]; the library is not under src/).
    A route path without parameters, as every path of this module is, is
    compiled to the regular expression [^path$] and tried with [re.match]:
    it accepts the path itself and, because [$] also matches just before
    a final line feed, the path followed by one line feed. *)
Definition line_feed : string := String "010"%char EmptyString.

Definition path_matches (p route : string) : bool :=
  String.eqb p route || String.eqb p (route ++ line_feed).

Definition matches (req : Request) (r : Route) : bool :=
  path_matches (path req) (route_path r)
  && existsb (Method_eqb (method req)) (route_methods r).

Definition find_route (req : Request) (rs : list Route) : option Route :=
  find (matches req) rs.

Section Dispatch.
  (** The program state handlers run in, its application object, and the
      functions the module defines, by name. *)
Variable World : Type.
Variable app_of : World -> FastAPI.
Variable functions : string -> option (M World value).

  (** Modelled from the spec: the framework's dispatch of one request.
      [None] stands for the framework's own default error responses
      (unknown path, unsupported method), which are not modelled. *)
Definition handle (req : Request) (w : World) : option (Response * World) :=
    match find_route req (routes (app_of w)) with
    | None => None
    | Some (BuiltinRoute _ DocsPage) =>
        Some (mkResponse 200 "text/html" SwaggerUI, w)
    | Some (BuiltinRoute _ SchemaDocument) =>
        Some (mkResponse 200 json_media_type OpenAPISchema, w)
    | Some (APIRoute _ _ f st) =>
        match functions f with
        | None => None
        | Some endpoint =>
            match endpoint w with
            | (Returned v, w') =>
                let code :=
                  match st with Some c => c | None => default_status_code end in
                Some (mkResponse code json_media_type (JSONContent v), w')
            | (Raised e, w') =>
                Some (mkResponse 500 "text/plain"
                        (PlainText "Internal Server Error"), w')
            end
        end
    end.

  (** Serving a sequence of requests, one after the other. *)
Fixpoint serve (reqs : list Request) (w : World)
    : list (option Response) * World :=
    match reqs with
    | [] => ([], w)
    | req :: rest =>
        match handle req w with
        | None =>
            let (rs, w') := serve rest w in (None :: rs, w')
        | Some (resp, w1) =>
            let (rs, w') := serve rest w1 in (Some resp :: rs, w')
        end
    end.
End Dispatch.

End Framework.

(* ================================================================== *)
(** ** app/main.py *)

Module Main.
Import Py Framework.

(** Module-level state: the one global the module binds to an object. *)
Record World : Type := mkWorld { app : FastAPI }.

(** [def root(): return {...}] *)
Definition root : M World value :=
  ret (VDict (dict_display
                [("status", VStr "ok");
                 ("service", VStr "AI Habit Tracker API");
                 ("docs", VStr "/docs")])).

Definition functions (name : string) : option (M World value) :=
  if String.eqb name "root" then Some root else None.

(** The module body, run once at import:
    [app = FastAPI(title=...)] and then the decorator [@app.get("/")]. *)
Definition imported : World :=
  let app0 := new_FastAPI "AI Habit Tracker Backend" in
  let app1 := get "/" "root" app0 in
  {| app := app1 |}.

Definition handle := Framework.handle World app functions.
Definition serve := Framework.serve World app functions.

(** The mapping the spec gives for the body. *)
Definition expected_body : dict :=
  [("status", VStr "ok");
   ("service", VStr "AI Habit Tracker API");
   ("docs", VStr "/docs")].

Definition is_root_request (req : Request) : Prop :=
  method req = GET /\ path req = "/".

End Main.

(* ================================================================== *)
(** ** Properties *)

Section RootEndpoint.
Import Py Framework Main.

(** *** Facts about the imported module *)

Lemma imported_routes :
  routes (app imported) =
  [BuiltinRoute "/openapi.json" SchemaDocument;
   BuiltinRoute "/docs" DocsPage;
   APIRoute "/" [GET] "root" None].
Proof. reflexivity. Qed.

Lemma root_run (w : World) : root w = (Returned (VDict expected_body), w).
Proof. reflexivity. Qed.

Lemma functions_inv (f : string) (h : M World value) :
  functions f = Some h -> h = root.
Proof.
  unfold functions. destruct (String.eqb f "root"); congruence.
Qed.

(** The only route a request for [/] with method GET matches is the
    application's own. *)
Lemma find_root_route (req : Request) :
  method req = GET -> path req = "/" ->
  find_route req (routes (app imported)) = Some (APIRoute "/" [GET] "root" None).
Proof.
  intros Hm Hp. rewrite imported_routes.
  unfold find_route, matches. simpl. rewrite Hm, Hp. reflexivity.
Qed.

Lemma handle_root (req : Request) :
  method req = GET -> path req = "/" ->
  handle req imported =
  Some (mkResponse 200 "application/json" (JSONContent (VDict expected_body)),
        imported).
Proof.
  intros Hm Hp. unfold handle, Framework.handle.
  rewrite (find_root_route req Hm Hp). reflexivity.
Qed.

(** *** Frame: dispatch never changes the program state *)

Lemma handle_frame (req : Request) (w w' : World) (resp : Response) :
  handle req w = Some (resp, w') -> w' = w.
Proof.
  unfold handle, Framework.handle.
  destruct (find_route req (routes (app w))) as [[p ms f st | p []] |];
    try congruence.
  destruct (functions f) as [h |] eqn:Hf; [| discriminate].
  apply functions_inv in Hf. subst h. rewrite root_run. congruence.
Qed.

Lemma serve_frame (reqs : list Request) :
  forall w, snd (serve reqs w) = w.
Proof.
  induction reqs as [| req rest IH]; intro w; [reflexivity |].
  unfold serve in *. simpl.
  destruct (Framework.handle World app functions req w) as [[resp w1] |] eqn:Hh.
  - apply handle_frame in Hh. subst w1.
    specialize (IH w).
    destruct (Framework.serve World app functions rest w). exact IH.
  - specialize (IH w).
    destruct (Framework.serve World app functions rest w). exact IH.
Qed.

Lemma handle_root_after (history : list Request) (req : Request) :
  method req = GET -> path req = "/" ->
  handle req (snd (serve history imported)) =
  Some (mkResponse 200 "application/json" (JSONContent (VDict expected_body)),
        snd (serve history imported)).
Proof.
  intros Hm Hp. rewrite serve_frame. now apply handle_root.
Qed.

(** *** The claims *)

(** C1: every GET request for [/], after any history of requests, is
    answered with exactly the mapping status -> ok, service -> AI Habit
    Tracker API, docs -> /docs, in this order and with nothing else; and
    this is what the handler itself returns in every state. *)
Theorem root_body_exact (history : list Request) (req : Request) :
  method req = GET -> path req = "/" ->
  (forall w, fst (root w) =
     Returned (VDict [("status", VStr "ok");
                      ("service", VStr "AI Habit Tracker API");
                      ("docs", VStr "/docs")])) /\
  exists resp w',
    handle req (snd (serve history imported)) = Some (resp, w') /\
    body resp =
      JSONContent (VDict [("status", VStr "ok");
                          ("service", VStr "AI Habit Tracker API");
                          ("docs", VStr "/docs")]).
Proof.
  intros Hm Hp. split; [intro w; reflexivity |].
  eexists. eexists. split.
  - apply handle_root_after; assumption.
  - reflexivity.
Qed.

Lemma root_body_exact_witness :
  let req := mkRequest GET "/" "" [] "" in
  method req = GET /\ path req = "/" /\
  exists resp w',
    handle req (snd (serve [] imported)) = Some (resp, w') /\
    body resp = JSONContent (VDict expected_body).
Proof.
  intro req. split; [reflexivity |]. split; [reflexivity |].
  apply (root_body_exact [] req); reflexivity.
Defined.

(** C2: every GET request for [/] is answered with status 200: the route
    carries no status code of its own, so the framework default applies. *)
Theorem root_status_200 (history : list Request) (req : Request) :
  method req = GET -> path req = "/" ->
  exists resp w',
    handle req (snd (serve history imported)) = Some (resp, w') /\
    status_code resp = 200.
Proof.
  intros Hm Hp.
  exists (mkResponse 200 "application/json" (JSONContent (VDict expected_body))).
  exists (snd (serve history imported)).
  split; [now apply handle_root_after | reflexivity].
Qed.

Lemma root_status_200_witness :
  let req := mkRequest GET "/" "verbose=1" [("accept", "*/*")] "" in
  method req = GET /\ path req = "/" /\
  exists resp w',
    handle req (snd (serve [req; req] imported)) = Some (resp, w') /\
    status_code resp = 200.
Proof.
  intro req. repeat split.
  exact (root_status_200 [req; req] req eq_refl eq_refl).
Defined.

(** C3: in every state the handler returns a mapping whose keys are
    exactly status, service and docs, each once, and all of whose values
    are strings. *)
Theorem root_body_shape (w : World) :
  exists d,
    fst (root w) = Returned (VDict d) /\
    keys d = ["status"; "service"; "docs"] /\
    NoDup (keys d) /\
    Forall (fun v => is_str v = true) (values d).
Proof.
  exists expected_body. split; [reflexivity |]. split; [reflexivity |]. split.
  - simpl. repeat constructor; simpl; intuition discriminate.
  - simpl. repeat constructor.
Qed.

(** C4: any two invocations of the root endpoint return the same body,
    whatever the two requests carry and whatever was served before each
    of them; hence any encoding of the two bodies gives the same bytes. *)
Theorem root_deterministic
    (history1 history2 : list Request) (req1 req2 : Request)
    (encode : Body -> list ascii) :
  method req1 = GET -> path req1 = "/" ->
  method req2 = GET -> path req2 = "/" ->
  (forall w1 w2, fst (root w1) = fst (root w2)) /\
  exists resp1 w1 resp2 w2,
    handle req1 (snd (serve history1 imported)) = Some (resp1, w1) /\
    handle req2 (snd (serve history2 imported)) = Some (resp2, w2) /\
    resp1 = resp2 /\
    encode (body resp1) = encode (body resp2).
Proof.
  intros Hm1 Hp1 Hm2 Hp2. split; [reflexivity |].
  do 4 eexists.
  rewrite (handle_root_after history1 req1 Hm1 Hp1).
  rewrite (handle_root_after history2 req2 Hm2 Hp2).
  repeat split.
Qed.

Lemma root_deterministic_witness :
  let req1 := mkRequest GET "/" "" [] "" in
  let req2 := mkRequest GET "/" "a=b" [("user-agent", "curl")] "ignored" in
  let other := mkRequest POST "/habits" "" [] "{}" in
  let encode := fun b : Body =>
    match b with
    | JSONContent (VDict d) => list_ascii_of_string (String.concat "," (keys d))
    | _ => []
    end in
  (method req1 = GET /\ path req1 = "/") /\
  (method req2 = GET /\ path req2 = "/") /\
  exists resp1 w1 resp2 w2,
    handle req1 (snd (serve [] imported)) = Some (resp1, w1) /\
    handle req2 (snd (serve [req1; other; req2] imported)) = Some (resp2, w2) /\
    resp1 = resp2 /\
    encode (body resp1) = encode (body resp2).
Proof.
  intros req1 req2 other encode.
  split; [split; reflexivity |]. split; [split; reflexivity |].
  apply (root_deterministic [] [req1; other; req2] req1 req2 encode);
    reflexivity.
Defined.

(** C5: running the handler leaves the whole program state, application
    object included, exactly as it found it, in every state; hence a GET
    request for [/] is served without changing the state, and the state
    after any sequence of requests is still the state at import. *)
Theorem root_no_side_effects (w : World) :
  snd (root w) = w /\
  app (snd (root w)) = app w /\
  (forall req resp w',
      method req = GET -> path req = "/" ->
      handle req w = Some (resp, w') -> w' = w) /\
  (forall history, snd (serve history imported) = imported).
Proof.
  split; [reflexivity |]. split; [reflexivity |]. split.
  - intros req resp w' _ _ Hh. now apply handle_frame in Hh.
  - intro history. apply serve_frame.
Qed.

(** C6: the handler returns normally in every state: it produces a value
    and never raises, and the answer to a GET request for [/] is never
    the framework's response to a failed handler. *)
Theorem root_never_fails (w : World) :
  (exists v, fst (root w) = Returned v) /\
  (forall e, fst (root w) <> Raised e) /\
  (forall history req resp w',
      method req = GET -> path req = "/" ->
      handle req (snd (serve history imported)) = Some (resp, w') ->
      status_code resp <> 500).
Proof.
  split; [| split].
  - eexists. reflexivity.
  - intros e. rewrite root_run. simpl. discriminate.
  - intros history req resp w' Hm Hp Hh.
    rewrite (handle_root_after history req Hm Hp) in Hh.
    inversion Hh; subst. simpl. discriminate.
Qed.

(** C7: after import the application object holds exactly one route
    registered by application code, for method GET (and no other) at
    path [/], served by [root]; no middleware has been added. *)
Theorem single_application_route :
  filter is_api_route (routes (app imported)) =
    [APIRoute "/" [GET] "root" None] /\
  user_middleware (app imported) = [] /\
  (forall r, In r (routes (app imported)) -> is_api_route r = true ->
             route_path r = "/" /\ route_methods r = [GET]).
Proof.
  rewrite imported_routes. split; [reflexivity |]. split; [reflexivity |].
  intros r Hin Hapi. simpl in Hin.
  destruct Hin as [<- | [<- | [<- | []]]]; simpl in Hapi;
    try discriminate; split; reflexivity.
Qed.

(** C8: every GET request for [/] is answered with media type
    application/json and a JSON body made from the returned mapping. *)
Theorem root_content_type (history : list Request) (req : Request) :
  method req = GET -> path req = "/" ->
  exists resp w' v,
    handle req (snd (serve history imported)) = Some (resp, w') /\
    media_type resp = "application/json" /\
    body resp = JSONContent v /\
    fst (root (snd (serve history imported))) = Returned v.
Proof.
  intros Hm Hp. do 3 eexists.
  rewrite (handle_root_after history req Hm Hp).
  split; [reflexivity |]. simpl. repeat split.
Qed.

Lemma root_content_type_witness :
  let req := mkRequest GET "/" "" [("accept", "text/html")] "" in
  (method req = GET /\ path req = "/") /\
  exists resp w' v,
    handle req (snd (serve [req] imported)) = Some (resp, w') /\
    media_type resp = "application/json" /\
    body resp = JSONContent v /\
    fst (root (snd (serve [req] imported))) = Returned v.
Proof.
  intro req. split; [split; reflexivity |].
  apply (root_content_type [req] req); reflexivity.
Defined.

(** C9: the application object is built with the default documentation
    URL, [/docs]; a GET request for that path is answered with the
    interactive documentation page; and [/docs] is also the value of the
    docs field of the root response. *)
Theorem docs_at_default_url (history : list Request) (req : Request) :
  method req = GET -> path req = "/docs" ->
  docs_url (app imported) = default_docs_url /\
  docs_url (app imported) = Some "/docs" /\
  (exists w',
     handle req (snd (serve history imported)) =
       Some (mkResponse 200 "text/html" SwaggerUI, w')) /\
  (forall w, exists d,
     fst (root w) = Returned (VDict d) /\
     option_map VStr (docs_url (app imported)) = dict_get "docs" d).
Proof.
  intros Hm Hp. split; [reflexivity |]. split; [reflexivity |]. split.
  - rewrite serve_frame. exists imported.
    unfold handle, Framework.handle. rewrite imported_routes.
    unfold find_route, matches. simpl. rewrite Hm, Hp. reflexivity.
  - intro w. exists expected_body. split; reflexivity.
Qed.

Lemma docs_at_default_url_witness :
  let req := mkRequest GET "/docs" "" [] "" in
  (method req = GET /\ path req = "/docs") /\
  docs_url (app imported) = default_docs_url /\
  docs_url (app imported) = Some "/docs" /\
  (exists w',
     handle req (snd (serve [] imported)) =
       Some (mkResponse 200 "text/html" SwaggerUI, w')) /\
  (forall w, exists d,
     fst (root w) = Returned (VDict d) /\
     option_map VStr (docs_url (app imported)) = dict_get "docs" d).
Proof.
  intro req. split; [split; reflexivity |].
  apply (docs_at_default_url [] req); reflexivity.
Defined.

(** C10: the title of the application object is AI Habit Tracker Backend,
    the service field of the root response is AI Habit Tracker API, and
    the two strings differ. *)
Theorem title_differs_from_service (w : World) :
  title (app imported) = "AI Habit Tracker Backend" /\
  (exists d,
     fst (root w) = Returned (VDict d) /\
     dict_get "service" d = Some (VStr "AI Habit Tracker API") /\
     dict_get "service" d <> Some (VStr (title (app imported)))).
Proof.
  split; [reflexivity |].
  exists expected_body. split; [reflexivity |]. split; [reflexivity |].
  simpl. intro H. inversion H.
Qed.

End RootEndpoint.

(* ================================================================== *)
(** ** Further properties of the module as served *)

Section Serving.
Import Py Framework Main.

Lemma Method_eqb_eq (a b : Method) : Method_eqb a b = true -> a = b.
Proof. destruct a, b; simpl; congruence. Qed.

(** The answers to a sequence of requests are the answers each request
    gets on its own in the starting state. *)
Lemma serve_responses (reqs : list Request) :
  forall w,
    fst (serve reqs w) = map (fun r => option_map fst (handle r w)) reqs.
Proof.
  induction reqs as [| req rest IH]; intro w; [reflexivity |].
  unfold serve, handle in *. simpl.
  destruct (Framework.handle World app functions req w) as [[resp w1] |] eqn:Hh.
  - apply handle_frame in Hh. subst w1. specialize (IH w).
    destruct (Framework.serve World app functions rest w). simpl in *.
    now rewrite IH.
  - specialize (IH w).
    destruct (Framework.serve World app functions rest w). simpl in *.
    now rewrite IH.
Qed.

Lemma serve_app_state (xs ys : list Request) :
  forall w, serve (xs ++ ys) w =
            (fst (serve xs w) ++ fst (serve ys (snd (serve xs w))),
             snd (serve ys (snd (serve xs w)))).
Proof.
  induction xs as [| x xs IH]; intro w.
  - simpl. now destruct (serve ys w).
  - unfold serve in *. simpl.
    destruct (Framework.handle World app functions x w) as [[resp w1] |].
    + rewrite (IH w1).
      destruct (Framework.serve World app functions xs w1). reflexivity.
    + rewrite (IH w).
      destruct (Framework.serve World app functions xs w). reflexivity.
Qed.

(** X1: a response whose body is the JSON encoding of a handler's result
    is only ever given to a GET request whose path the pattern of [/]
    accepts, that is [/] itself or [/] followed by one line feed, and the
    result is then the root mapping: no other method or path reaches
    [root]. *)
Theorem handler_result_only_for_root
    (history : list Request) (req : Request)
    (resp : Response) (w' : World) (v : value) :
  handle req (snd (serve history imported)) = Some (resp, w') ->
  body resp = JSONContent v ->
  method req = GET /\
  (path req = "/" \/ path req = ("/" ++ line_feed)%string) /\
  v = VDict expected_body.
Proof.
  rewrite serve_frame. unfold handle, Framework.handle.
  rewrite imported_routes. unfold find_route. simpl find.
  destruct (matches req (BuiltinRoute "/openapi.json" SchemaDocument)).
  { intros [= <- _] Hb. discriminate Hb. }
  destruct (matches req (BuiltinRoute "/docs" DocsPage)).
  { intros [= <- _] Hb. discriminate Hb. }
  destruct (matches req (APIRoute "/" [GET] "root" None)) eqn:Hm;
    [| discriminate].
  unfold matches, path_matches in Hm. cbn [route_path route_methods existsb] in Hm.
  apply andb_prop in Hm. destruct Hm as [Hp Hmeth].
  apply Bool.orb_true_iff in Hp.
  apply Bool.orb_true_iff in Hmeth. destruct Hmeth as [Hmeth | Hf];
    [| discriminate].
  apply Method_eqb_eq in Hmeth.
  simpl. intros [= <- _] Hb. simpl in Hb. injection Hb as <-.
  split; [assumption |]. split; [| reflexivity].
  destruct Hp as [Hp | Hp]; apply String.eqb_eq in Hp; auto.
Qed.

Lemma handler_result_only_for_root_witness :
  let req := mkRequest GET "/" "page=2" [] "" in
  let resp :=
    mkResponse 200 "application/json" (JSONContent (VDict expected_body)) in
  (handle req (snd (serve [req] imported)) = Some (resp, imported) /\
   body resp = JSONContent (VDict expected_body)) /\
  method req = GET /\
  (path req = "/" \/ path req = ("/" ++ line_feed)%string) /\
  VDict expected_body = VDict expected_body.
Proof.
  intros req resp. split; [split; reflexivity |].
  apply (handler_result_only_for_root [req] req resp imported
           (VDict expected_body)); reflexivity.
Defined.

(** X2: serving is history independent. Whatever requests were served
    since import, each later request is answered exactly as it would be
    if it were the first one after import. *)
Theorem serve_history_independent (history reqs : list Request) :
  fst (serve (history ++ reqs) imported) =
  fst (serve history imported) ++
  map (fun r => option_map fst (handle r imported)) reqs.
Proof.
  rewrite serve_app_state. cbn [fst].
  rewrite serve_frame. f_equal. apply serve_responses.
Qed.

(** X3: a request for [/] with any method other than GET is not answered
    by application code: no route of the module matches it, and it is
    left to the framework's own error handling. *)
Theorem root_other_methods_unserved
    (history : list Request) (req : Request) :
  path req = "/" -> method req <> GET ->
  handle req (snd (serve history imported)) = None.
Proof.
  intros Hp Hm. rewrite serve_frame.
  unfold handle, Framework.handle. rewrite imported_routes.
  unfold find_route, matches. simpl. rewrite Hp. simpl.
  destruct (method req); try reflexivity. now elim Hm.
Qed.

Lemma root_other_methods_unserved_witness :
  let req := mkRequest POST "/" "" [("content-type", "application/json")] "{}" in
  (path req = "/" /\ method req <> GET) /\
  handle req (snd (serve [req] imported)) = None.
Proof.
  intro req. split; [split; [reflexivity | discriminate] |].
  apply (root_other_methods_unserved [req] req);
    [reflexivity | discriminate].
Defined.

End Serving.
